(** * data-analyzer: the landing page and its root layout

    A shallow embedding of [src/app/page.tsx] (the [Home] view) and
    [src/app/layout.tsx] (the font binding [courier], the [metadata] record
    and the [RootLayout] shell), together with the properties the
    specification states about them.

    The two components are JSX expressions.  They are embedded as functions
    that build a React element tree ([ReactNode]); JSX text is kept as it is
    written in the source, line breaks and indentation included, and goes
    through the whitespace rule of the JSX transform ([jsx_text]). *)

From Stdlib Require Import String Ascii List Bool Arith Lia.
Import ListNotations.
Open Scope string_scope.

(** ** React element trees *)

(** A prop list: the attributes written on a JSX tag, in source order. *)
Definition Props := list (string * string).

(** [React.ReactNode], restricted to what renders to markup: nothing
    ([null], [undefined], booleans), a string, an element of a host tag with
    its props and children, or an array / fragment of nodes. *)
#[warnings="-register-all"]
Inductive ReactNode : Type :=
| Null : ReactNode
| Text : string -> ReactNode
| Element : string -> Props -> list ReactNode -> ReactNode
| Fragment : list ReactNode -> ReactNode.

(** Splitting a string at the characters [sep] accepts; the pieces may be
    empty, and there is always at least one. *)
Fixpoint split_on (sep : ascii -> bool) (s : string) : list string :=
  match s with
  | EmptyString => [""]
  | String c r =>
      if sep c then "" :: split_on sep r
      else match split_on sep r with
           | l :: ls => String c l :: ls
           | [] => [String c ""]
           end
  end.

Definition non_empty (s : string) : bool := negb (String.eqb s "").

(** ** The whitespace rule of JSX text

    A run of JSX text is split into lines; every line but the first loses
    its leading blanks, every line but the last loses its trailing blanks,
    empty lines are dropped and the remaining ones are joined by one space.
    A run that ends up empty produces no child at all. *)
Module Jsx.

Definition LF : ascii := ascii_of_nat 10.
Definition CR : ascii := ascii_of_nat 13.
Definition TAB : ascii := ascii_of_nat 9.

(** A line break followed by [n] spaces of indentation. *)
Fixpoint spaces (n : nat) : string :=
  match n with
  | O => ""
  | S k => String " " (spaces k)
  end.

Definition nl (indent : nat) : string := String LF (spaces indent).

Definition is_blank (c : ascii) : bool :=
  Ascii.eqb c " " || Ascii.eqb c TAB.

Definition is_newline (c : ascii) : bool :=
  Ascii.eqb c LF || Ascii.eqb c CR.

Definition split_lines (s : string) : list string :=
  split_on is_newline s.

Fixpoint trim_start (s : string) : string :=
  match s with
  | EmptyString => ""
  | String c r => if is_blank c then trim_start r else s
  end.

Fixpoint trim_end (s : string) : string :=
  match s with
  | EmptyString => ""
  | String c r =>
      let r' := trim_end r in
      if is_blank c && String.eqb r' "" then "" else String c r'
  end.

Fixpoint clean_lines (first : bool) (ls : list string) : list string :=
  match ls with
  | [] => []
  | [l] => [if first then l else trim_start l]
  | l :: rest =>
      trim_end (if first then l else trim_start l) :: clean_lines false rest
  end.

Definition jsx_text (raw : string) : list ReactNode :=
  match filter non_empty (clean_lines true (split_lines raw)) with
  | [] => []
  | ls => [Text (String.concat " " ls)]
  end.

End Jsx.
Import Jsx.

(** ** [src/app/page.tsx] *)

(** [export default function Home()].  React calls a component with its
    props object; [Home] declares no parameter, so whatever it is called
    with is dropped. *)
Definition Home (_ : Props) : ReactNode :=
  Element "div" [("className", "min-h-screen p-8 font-mono")]
    (jsx_text (nl 6) ++
     [Element "main" [("className", "max-w-4xl mx-auto")]
        (jsx_text (nl 8) ++
         [Element "h1" [("className", "text-4xl font-bold mb-8")]
            (jsx_text "Data Analyzer")] ++
         jsx_text (nl 8) ++
         [Element "p" [("className", "text-lg text-foreground/80")]
            (jsx_text (nl 10 ++ "Welcome to your data analysis dashboard."
                       ++ nl 8))] ++
         jsx_text (nl 6))] ++
     jsx_text (nl 4)).

(** ** [src/app/layout.tsx]

    The module also imports the stylesheet [./globals.css], which is not
    among the sources; it adds nothing to the tree [RootLayout] returns. *)

(** The options object given to a [next/font/google] loader. *)
Module FontOptions.
Record t : Type := Build
  { weight : list string;
    variable : string;
    subsets : list string }.
End FontOptions.

(** What a [next/font] loader returns: a class that applies the family, a
    class that declares the CSS variable, and the inline [fontFamily]. *)
Module NextFont.
Record t : Type := Build
  { className : string;
    variable : string;
    style : string }.
End NextFont.

(** The argument of [Courier_Prime(...)], lines 5 to 9. *)
Definition courier_options : FontOptions.t :=
  {| FontOptions.weight := ["400"; "700"];
     FontOptions.variable := "--font-courier";
     FontOptions.subsets := ["latin"] |}.

(** A font binding of a module: the loader imported from
    [next/font/google] and the options it is called with. *)
Record FontDecl : Type :=
  { loader : string;
    options : FontOptions.t }.

(** [layout.tsx] has one font binding, [const courier = Courier_Prime(...)];
    [page.tsx] has none. *)
Definition courier_decl : FontDecl :=
  {| loader := "Courier_Prime"; options := courier_options |}.

Definition layout_fonts : list FontDecl := [courier_decl].

Definition page_fonts : list FontDecl := [].

(** [next/font/google] names each loader after its family, with an
    underscore for every space. *)
Fixpoint family_of_loader (name : string) : string :=
  match name with
  | EmptyString => ""
  | String c r =>
      String (if Ascii.eqb c "_" then " "%char else c) (family_of_loader r)
  end.

(** [Metadata] of Next.js, its two fields used here; both are optional. *)
Record Metadata : Type :=
  { title : option string;
    description : option string }.

(** [export const metadata], lines 11 to 14. *)
Definition metadata : Metadata :=
  {| title := Some "Data Analyzer";
     description :=
       Some "Powerful data analysis and visualization dashboard" |}.

(** [export default function RootLayout({ children })], lines 16 to 30.
    [courier] is the module-level binding the body's class is built from. *)
Definition RootLayout (courier : NextFont.t) (children : ReactNode)
  : ReactNode :=
  Element "html" [("lang", "en")]
    (jsx_text (nl 6) ++
     [Element "body"
        [("className", NextFont.variable courier ++ " antialiased")]
        (jsx_text (nl 8) ++ [children] ++ jsx_text (nl 6))] ++
     jsx_text (nl 4)).

(** ** Observing a tree *)

Definition tag_of (n : ReactNode) : option string :=
  match n with
  | Element t _ _ => Some t
  | _ => None
  end.

Definition props_of (n : ReactNode) : Props :=
  match n with
  | Element _ ps _ => ps
  | _ => []
  end.

Definition children_of (n : ReactNode) : list ReactNode :=
  match n with
  | Element _ _ cs => cs
  | Fragment cs => cs
  | _ => []
  end.

(** The value of a prop, the first binding of its name. *)
Fixpoint prop (name : string) (ps : Props) : option string :=
  match ps with
  | [] => None
  | (k, v) :: rest => if String.eqb k name then Some v else prop name rest
  end.

(** The class list of a [className] value: its pieces between runs of
    whitespace. *)
Definition FF : ascii := ascii_of_nat 12.

(** ASCII whitespace of HTML, at which a class attribute is split: space,
    tab, line feed, form feed and carriage return. *)
Definition is_html_space (c : ascii) : bool :=
  is_blank c || Ascii.eqb c LF || Ascii.eqb c FF || Ascii.eqb c CR.

Definition class_tokens (cls : string) : list string :=
  filter non_empty (split_on is_html_space cls).

Definition classes_of (n : ReactNode) : list string :=
  match prop "className" (props_of n) with
  | Some cls => class_tokens cls
  | None => []
  end.

(** Every element of a given tag, in document order. *)
Fixpoint elements_by_tag (tag : string) (n : ReactNode) : list ReactNode :=
  match n with
  | Null => []
  | Text _ => []
  | Element t _ cs =>
      (if String.eqb t tag then [n] else [])
        ++ flat_map (elements_by_tag tag) cs
  | Fragment cs => flat_map (elements_by_tag tag) cs
  end.

(** Every text node, in document order. *)
Fixpoint texts (n : ReactNode) : list string :=
  match n with
  | Null => []
  | Text s => [s]
  | Element _ _ cs => flat_map texts cs
  | Fragment cs => flat_map texts cs
  end.

Definition text_content (n : ReactNode) : string :=
  String.concat "" (texts n).

(** The body element of a document: the [body] child of its root. *)
Definition is_tag (tag : string) (n : ReactNode) : bool :=
  match tag_of n with
  | Some t => String.eqb t tag
  | None => false
  end.

Definition document_body (doc : ReactNode) : option ReactNode :=
  if is_tag "html" doc then find (is_tag "body") (children_of doc) else None.

(** ** Static markup of a tree *)

Definition dquote : string := String (ascii_of_nat 34) "".

Definition escape_char (c : ascii) : string :=
  if Ascii.eqb c "&" then "&amp;"
  else if Ascii.eqb c "<" then "&lt;"
  else if Ascii.eqb c ">" then "&gt;"
  else if Ascii.eqb c (ascii_of_nat 34) then "&quot;"
  else if Ascii.eqb c "'" then "&#x27;"
  else String c "".

Fixpoint escape (s : string) : string :=
  match s with
  | EmptyString => ""
  | String c r => escape_char c ++ escape r
  end.

Definition attribute_name (k : string) : string :=
  if String.eqb k "className" then "class" else k.

Fixpoint render_props (ps : Props) : string :=
  match ps with
  | [] => ""
  | (k, v) :: rest =>
      " " ++ attribute_name k ++ "=" ++ dquote ++ escape v ++ dquote
        ++ render_props rest
  end.

Fixpoint render_markup (n : ReactNode) : string :=
  match n with
  | Null => ""
  | Text s => escape s
  | Element t ps cs =>
      "<" ++ t ++ render_props ps ++ ">"
        ++ String.concat "" (map render_markup cs)
        ++ "</" ++ t ++ ">"
  | Fragment cs => String.concat "" (map render_markup cs)
  end.

(** ** Metadata of a route

    Next.js resolves the metadata of a route from the root layout down to
    the page: each segment's export is merged field by field over what the
    segments above it gave, a field a segment leaves out keeping its
    value.  [None] stands for a key the export does not have; an export
    that has the key with an empty or null value, which Next.js takes as
    clearing the field, is outside this model. *)

Definition or_else {A : Type} (x y : option A) : option A :=
  match x with
  | Some _ => x
  | None => y
  end.

Definition merge_metadata (parent child : Metadata) : Metadata :=
  {| title := or_else (title child) (title parent);
     description := or_else (description child) (description parent) |}.

Definition resolve_metadata (segments : list Metadata) : Metadata :=
  fold_left merge_metadata segments
    {| title := None; description := None |}.

(** A segment that sets neither field. *)
Definition overrides_nothing (m : Metadata) : Prop :=
  title m = None /\ description m = None.

(** ** Tailwind's opacity modifier: [utility/NN] is [utility] at NN percent *)

Definition digit_of (c : ascii) : option nat :=
  let n := nat_of_ascii c in
  if ((48 <=? n) && (n <=? 57))%nat then Some (n - 48)%nat else None.

Fixpoint decimal (acc : nat) (s : string) : option nat :=
  match s with
  | EmptyString => Some acc
  | String c r =>
      match digit_of c with
      | Some d => decimal (10 * acc + d)%nat r
      | None => None
      end
  end.

Definition is_slash (c : ascii) : bool := Ascii.eqb c "/".

Definition opacity_modifier (cls : string) : option (string * nat) :=
  match split_on is_slash cls with
  | [utility; String c r] =>
      match decimal 0 (String c r) with
      | Some n => Some (utility, n)
      | None => None
      end
  | _ => None
  end.

(** ** Derived notions the properties are stated with *)

(** [page.tsx] exports no [metadata]: its segment sets no field. *)
Definition page_metadata : Metadata :=
  {| title := None; description := None |}.

(** Every font binding of the two modules. *)
Definition declared_fonts : list FontDecl := layout_fonts ++ page_fonts.

Definition heading_tags : list string := ["h1"; "h2"; "h3"; "h4"; "h5"; "h6"].

(** Every heading element of a document, whatever its level. *)
Definition headings (doc : ReactNode) : list ReactNode :=
  flat_map (fun t => elements_by_tag t doc) heading_tags.



(** A class value of blanks only (the empty one included). *)
Fixpoint all_blank (s : string) : bool :=
  match s with
  | EmptyString => true
  | String c r => is_blank c && all_blank r
  end.

(** * Properties *)

Example Home_tree :
  Home [] =
  Element "div" [("className", "min-h-screen p-8 font-mono")]
    [Element "main" [("className", "max-w-4xl mx-auto")]
       [Element "h1" [("className", "text-4xl font-bold mb-8")]
          [Text "Data Analyzer"];
        Element "p" [("className", "text-lg text-foreground/80")]
          [Text "Welcome to your data analysis dashboard."]]].
Proof. reflexivity. Qed.

Example Home_markup :
  render_markup (Home []) =
  "<div class=" ++ dquote ++ "min-h-screen p-8 font-mono" ++ dquote ++ ">"
  ++ "<main class=" ++ dquote ++ "max-w-4xl mx-auto" ++ dquote ++ ">"
  ++ "<h1 class=" ++ dquote ++ "text-4xl font-bold mb-8" ++ dquote ++ ">"
  ++ "Data Analyzer</h1>"
  ++ "<p class=" ++ dquote ++ "text-lg text-foreground/80" ++ dquote ++ ">"
  ++ "Welcome to your data analysis dashboard.</p></main></div>".
Proof. reflexivity. Qed.

(** The whitespace rule on a run of several lines: inner indentation and
    blank lines go, the outer blanks of the first and last line stay. *)
Example jsx_text_lines :
  jsx_text (" a " ++ nl 3 ++ " b  " ++ nl 2 ++ nl 1 ++ "c ")
  = [Text " a b c "].
Proof. reflexivity. Qed.

(** ** Splitting and class lists *)

Lemma append_assoc (a b c : string) : (a ++ b) ++ c = a ++ (b ++ c).
Proof.
  induction a as [| x a IH]; simpl; [reflexivity | now rewrite IH].
Qed.

Lemma split_on_cons (sep : ascii -> bool) (s : string) :
  exists l ls, split_on sep s = l :: ls.
Proof.
  destruct s as [| c r]; simpl.
  - eauto.
  - destruct (sep c); [eauto |].
    destruct (split_on sep r); eauto.
Qed.

(** Splitting [a], a separator, then [b] gives the pieces of [a] followed
    by the pieces of [b]. *)
Lemma split_on_sep (sep : ascii -> bool) (c : ascii) (a b : string) :
  sep c = true ->
  split_on sep (a ++ String c b) = (split_on sep a ++ split_on sep b)%list.
Proof.
  intros Hc. induction a as [| x a IH]; simpl.
  - now rewrite Hc.
  - rewrite IH. destruct (sep x); [reflexivity |].
    destruct (split_on_cons sep a) as (l & ls & ->). reflexivity.
Qed.

Lemma class_tokens_space (a b : string) :
  class_tokens (a ++ String " " b) = (class_tokens a ++ class_tokens b)%list.
Proof.
  unfold class_tokens.
  rewrite (split_on_sep is_html_space " " a b) by reflexivity.
  apply filter_app.
Qed.

(** ** Metadata resolution *)

Lemma merge_overrides_nothing (acc m : Metadata) :
  overrides_nothing m -> merge_metadata acc m = acc.
Proof.
  intros [Ht Hd]. unfold merge_metadata. rewrite Ht, Hd.
  destruct acc; reflexivity.
Qed.

Lemma fold_overrides_nothing (segments : list Metadata) (acc : Metadata) :
  Forall overrides_nothing segments ->
  fold_left merge_metadata segments acc = acc.
Proof.
  intros H. revert acc.
  induction H as [| m ms Hm _ IH]; intros acc; simpl.
  - reflexivity.
  - rewrite (merge_overrides_nothing acc m Hm). apply IH.
Qed.

(** ** The default route *)

(** C1: every render of the default route, the root layout around the home
    view, has exactly one heading element, an [h1] whose text is exactly
    "Data Analyzer", and exactly one paragraph, whose text is exactly
    "Welcome to your data analysis dashboard."; these two strings are all
    the text of the document, whatever the font object and whatever the
    view is called with. *)
Theorem default_route_heading_and_paragraph
  (courier : NextFont.t) (props : Props) :
  let doc := RootLayout courier (Home props) in
  headings doc = elements_by_tag "h1" doc /\
  map children_of (elements_by_tag "h1" doc) = [[Text "Data Analyzer"]] /\
  map text_content (elements_by_tag "h1" doc) = ["Data Analyzer"] /\
  map children_of (elements_by_tag "p" doc)
    = [[Text "Welcome to your data analysis dashboard."]] /\
  map text_content (elements_by_tag "p" doc)
    = ["Welcome to your data analysis dashboard."] /\
  texts doc = ["Data Analyzer"; "Welcome to your data analysis dashboard."].
Proof.
  cbv zeta. repeat split; reflexivity.
Qed.

(** C2, as the specification states it, fails: the description the layout
    exports ends without a full stop. *)
Lemma description_has_no_trailing_period :
  ~ (forall segments : list Metadata,
        Forall overrides_nothing segments ->
        title (resolve_metadata (metadata :: segments))
          = Some "Data Analyzer" /\
        description (resolve_metadata (metadata :: segments))
          = Some "Powerful data analysis and visualization dashboard.").
Proof.
  intros H.
  destruct (H [page_metadata]) as [_ Hd].
  - repeat constructor.
  - discriminate Hd.
Qed.

(** C2, amended: on every route whose segments below the root layout set
    neither field, the title resolves to "Data Analyzer" and the description
    to "Powerful data analysis and visualization dashboard", without a
    trailing full stop. *)
Theorem metadata_resolves_to_layout (segments : list Metadata) :
  Forall overrides_nothing segments ->
  title (resolve_metadata (metadata :: segments)) = Some "Data Analyzer" /\
  description (resolve_metadata (metadata :: segments))
    = Some "Powerful data analysis and visualization dashboard".
Proof.
  intros H. unfold resolve_metadata. simpl fold_left.
  rewrite (fold_overrides_nothing segments _ H). split; reflexivity.
Qed.

Lemma metadata_resolves_to_layout_witness :
  Forall overrides_nothing [page_metadata] /\
  title (resolve_metadata [metadata; page_metadata]) = Some "Data Analyzer" /\
  description (resolve_metadata [metadata; page_metadata])
    = Some "Powerful data analysis and visualization dashboard".
Proof.
  split.
  - repeat constructor.
  - apply (metadata_resolves_to_layout [page_metadata]).
    repeat constructor.
Defined.

(** ** The root layout *)

(** C3: for every nested content value, the document the root layout
    produces has a body whose children are that value alone, as it was
    given, and the markup of the document is the markup of the value
    between the opening and closing tags of the shell. *)
Theorem RootLayout_preserves_children
  (courier : NextFont.t) (children : ReactNode) :
  option_map children_of (document_body (RootLayout courier children))
    = Some [children] /\
  render_markup (RootLayout courier children)
    = "<html lang=" ++ dquote ++ "en" ++ dquote ++ ">"
      ++ "<body class=" ++ dquote
      ++ escape (NextFont.variable courier ++ " antialiased") ++ dquote ++ ">"
      ++ render_markup children
      ++ "</body></html>".
Proof.
  split; [reflexivity |].
  repeat (cbn; rewrite append_assoc). reflexivity.
Qed.

(** C4: for every nested content value, the root of the rendered document
    is an [html] element whose [lang] attribute is "en". *)
Theorem RootLayout_lang_en (courier : NextFont.t) (children : ReactNode) :
  tag_of (RootLayout courier children) = Some "html" /\
  prop "lang" (props_of (RootLayout courier children)) = Some "en".
Proof.
  split; reflexivity.
Qed.

(** C5: the home view is a constant: whatever two renders are called with,
    they give the same tree and the same markup, byte for byte, and any
    sequence of renders gives that one markup every time. *)
Theorem Home_constant (p q : Props) (calls : list Props) :
  Home p = Home q /\
  render_markup (Home p) = render_markup (Home q) /\
  map (fun c => render_markup (Home c)) calls
    = repeat (render_markup (Home p)) (length calls).
Proof.
  split; [reflexivity |]. split; [reflexivity |].
  induction calls as [| c calls IH]; [reflexivity |].
  cbn [map length repeat]. rewrite IH. reflexivity.
Qed.

(** What [layout.tsx] fixes about the font binding: the two weights, the
    single subset, and that it is the only binding of the two modules. *)
Lemma courier_options_weights_and_subsets :
  FontOptions.weight courier_options = ["400"; "700"] /\
  FontOptions.subsets courier_options = ["latin"] /\
  map options declared_fonts = [courier_options] /\
  map (fun d => family_of_loader (loader d)) declared_fonts
    = ["Courier Prime"].
Proof.
  repeat split; reflexivity.
Qed.

(** C7: for every render of the root layout, the class attribute of the
    body is the font object's variable class followed by [antialiased]:
    its class list is the class list of the former, then [antialiased],
    and nothing else. *)
Theorem body_class_tokens (courier : NextFont.t) (children : ReactNode) :
  exists body : ReactNode,
    document_body (RootLayout courier children) = Some body /\
    tag_of body = Some "body" /\
    props_of body
      = [("className", NextFont.variable courier ++ " antialiased")] /\
    classes_of body
      = (class_tokens (NextFont.variable courier) ++ ["antialiased"])%list.
Proof.
  eexists. split; [reflexivity |]. repeat split.
  unfold classes_of. simpl prop.
  apply (class_tokens_space (NextFont.variable courier) "antialiased").
Qed.

(** ** Styling details *)

(** C9: the one paragraph of the home view carries the classes [text-lg]
    and [text-foreground/80], the latter being the [text-foreground] colour
    with the opacity modifier 80, that is 80 percent. *)
Theorem paragraph_opacity (props : Props) :
  map classes_of (elements_by_tag "p" (Home props))
    = [["text-lg"; "text-foreground/80"]] /\
  map (fun p => map opacity_modifier (classes_of p))
      (elements_by_tag "p" (Home props))
    = [[None; Some ("text-foreground", 80)]].
Proof.
  split; reflexivity.
Qed.

(** C10: the font binding names its CSS variable [--font-courier] and
    binds it to the Courier Prime family; an identifier names a variable
    declared by the two modules exactly when it is [--font-courier]. *)
Theorem courier_variable_name :
  FontOptions.variable courier_options = "--font-courier" /\
  map (fun d => (FontOptions.variable (options d),
                 family_of_loader (loader d))) declared_fonts
    = [("--font-courier", "Courier Prime")] /\
  forall v : string,
    In v (map (fun d => FontOptions.variable (options d)) declared_fonts)
    <-> v = "--font-courier".
Proof.
  repeat split; try reflexivity.
  - simpl. intros [H | []]. now symmetry.
  - intros ->. simpl. now left.
Qed.

(** * Further properties of the root layout *)

(** The tree [RootLayout] builds, once the indentation between its tags
    has gone through the whitespace rule. *)
Lemma RootLayout_tree (courier : NextFont.t) (children : ReactNode) :
  RootLayout courier children
  = Element "html" [("lang", "en")]
      [Element "body"
         [("className", NextFont.variable courier ++ " antialiased")]
         [children]].
Proof. reflexivity. Qed.

Lemma length_append (a b : string) :
  String.length (a ++ b) = String.length a + String.length b.
Proof.
  induction a as [| x a IH]; simpl; [reflexivity | now rewrite IH].
Qed.

Lemma append_cancel_r (a b s : string) : a ++ s = b ++ s -> a = b.
Proof.
  revert b. induction a as [| x a IH]; intros [| y b] H; simpl in H.
  - reflexivity.
  - exfalso. apply (f_equal String.length) in H.
    simpl in H. rewrite length_append in H. lia.
  - exfalso. apply (f_equal String.length) in H.
    simpl in H. rewrite length_append in H. lia.
  - injection H as -> H. f_equal. now apply IH.
Qed.

(** X1: the layout adds no text of its own: the text nodes of the document
    are those of the nested content, in the same order. *)
Theorem RootLayout_adds_no_text (courier : NextFont.t) (children : ReactNode) :
  texts (RootLayout courier children) = texts children /\
  text_content (RootLayout courier children) = text_content children.
Proof.
  assert (H : texts (RootLayout courier children) = texts children).
  { rewrite RootLayout_tree. cbn [texts flat_map]. now rewrite !app_nil_r. }
  split; [exact H |]. unfold text_content. now rewrite H.
Qed.

(** X2: the only elements the layout adds are the [html] root and its
    [body]: for every tag, the elements of that tag in the document are the
    root if the tag is [html], the body if it is [body], then those of the
    nested content; so the headings and paragraphs of any route are those of
    its view. *)
Theorem RootLayout_adds_only_html_and_body
  (courier : NextFont.t) (children : ReactNode) (tag : string) :
  elements_by_tag tag (RootLayout courier children)
  = ((if String.eqb "html" tag then [RootLayout courier children] else [])
     ++ (if String.eqb "body" tag
         then [Element "body"
                 [("className",
                   (NextFont.variable courier ++ " antialiased")%string)]
                 [children]]
         else [])
     ++ elements_by_tag tag children)%list
  /\ headings (RootLayout courier children) = headings children
  /\ elements_by_tag "p" (RootLayout courier children)
     = elements_by_tag "p" children.
Proof.
  assert (G : forall t : string,
             elements_by_tag t (RootLayout courier children)
             = ((if String.eqb "html" t
                 then [RootLayout courier children] else [])
                ++ (if String.eqb "body" t
                    then [Element "body"
                            [("className",
                              (NextFont.variable courier
                                 ++ " antialiased")%string)]
                            [children]]
                    else [])
                ++ elements_by_tag t children)%list).
  { intros t. rewrite RootLayout_tree.
    cbn [elements_by_tag flat_map]. now rewrite !app_nil_r. }
  split; [apply G |]. split.
  - unfold headings, heading_tags. cbn [flat_map].
    rewrite !G. reflexivity.
  - rewrite G. reflexivity.
Qed.

(** X3: two documents of the layout are equal exactly when they were built
    from the same variable class and the same nested content: the layout
    loses nothing of its content, and of the font object it uses the
    [variable] field only, never [className] or [style]. *)
Theorem RootLayout_eq_iff
  (c1 c2 : NextFont.t) (children1 children2 : ReactNode) :
  RootLayout c1 children1 = RootLayout c2 children2
  <-> NextFont.variable c1 = NextFont.variable c2 /\ children1 = children2.
Proof.
  rewrite !RootLayout_tree. split.
  - intros H. injection H as Hv Hc. split; [| exact Hc].
    exact (append_cancel_r _ _ _ Hv).
  - intros [-> ->]. reflexivity.
Qed.

(** ** The body's class list *)



Lemma class_tokens_all_blank (s : string) :
  all_blank s = true -> class_tokens s = [].
Proof.
  unfold class_tokens.
  induction s as [| c r IH]; simpl; [reflexivity |].
  intros H. apply andb_true_iff in H as [Hc Hr].
  unfold is_html_space. rewrite Hc. simpl. exact (IH Hr).
Qed.

Lemma RootLayout_body_classes (courier : NextFont.t) (children : ReactNode) :
  option_map classes_of (document_body (RootLayout courier children))
  = Some (class_tokens (NextFont.variable courier) ++ ["antialiased"])%list.
Proof.
  change (Some (class_tokens (NextFont.variable courier ++ " antialiased"))
          = Some (class_tokens (NextFont.variable courier)
                    ++ ["antialiased"])%list).
  now rewrite (class_tokens_space (NextFont.variable courier) "antialiased").
Qed.



(** X5: when the font object's variable class is empty or blanks only, the
    template still yields a class attribute, and [antialiased] is the only
    class the body carries. *)
Theorem body_class_without_variable
  (courier : NextFont.t) (children : ReactNode) :
  all_blank (NextFont.variable courier) = true ->
  option_map classes_of (document_body (RootLayout courier children))
  = Some ["antialiased"].
Proof.
  intros H. rewrite RootLayout_body_classes.
  now rewrite (class_tokens_all_blank _ H).
Qed.

Lemma body_class_without_variable_witness :
  all_blank "" = true /\
  option_map classes_of
    (document_body (RootLayout (NextFont.Build "" "" "") Null))
  = Some ["antialiased"].
Proof.
  split; [reflexivity |].
  apply (body_class_without_variable (NextFont.Build "" "" "") Null).
  reflexivity.
Defined.
